(** * Screenshot-Holmes: a shallow embedding of [src/app.py] and
    [src/utils/CountPngs.py] with the properties of their specification.

    Integers of the Python code are [Z]; Python's floor division [//] is
    [Z.div].  The dollar amounts, which the code computes with Python
    floats, are modelled by their exact rational values in [Q]. *)

From Stdlib Require Import ZArith QArith Qround Ascii String Lia.
From stdpp Require Import base gmap strings list.

Open Scope Z_scope.

(* ------------------------------------------------------------------ *)
(** ** CountPngs.py: the tile cost estimator *)

Module CountPngs.

(** Module-level constants (CountPngs.py lines 21-24). *)
Definition PRICE_PER_MILLION_TOKENS : Q := 15 # 100.
Definition BASE_TOKENS_PER_IMAGE : Z := 2833.
Definition TILE_TOKENS : Z := 5667.
Definition TILE_SIZE_PIXELS : Z := 512.

(** [math.ceil(a / b)] for a Python int [a] and a positive int [b].  The
    true division [a / b] is exact on the dimensions the code sees
    (|a| < 2^53, [b] a power of two), so the ceiling is the exact one:
    the negated floor of the negated quotient. *)
Definition py_ceil_div (a b : Z) : Z := - ((- a) / b).

(** [determine_tiles(width, height, tile_size=TILE_SIZE_PIXELS)] *)
Definition determine_tiles (width height : Z) : Z :=
  let tiles_x := py_ceil_div width TILE_SIZE_PIXELS in
  let tiles_y := py_ceil_div height TILE_SIZE_PIXELS in
  tiles_x * tiles_y.

(** [calculate_tokens_per_image(tiles)] *)
Definition calculate_tokens_per_image (tiles : Z) : Z :=
  BASE_TOKENS_PER_IMAGE + (TILE_TOKENS * tiles).

(** [calculate_cost(total_tokens)].  Dollar amounts are exact rationals
    here; the code computes them in binary floating point, which rounds
    each operation monotonically, so facts about their order carry over to
    the code while exact equalities between amounts need not. *)
Definition calculate_cost (total_tokens : Z) : Q :=
  (inject_Z total_tokens / inject_Z 1000000) * PRICE_PER_MILLION_TOKENS.

(** One entry of [screenshot_data] as produced by [analyze_screenshot_pngs]. *)
Record screenshot := mkScreenshot {
  file_path : string;
  width_px : Z;
  height_px : Z;
  size_bytes : Z
}.

(** The same entry after [data.update({...})] in the loop of
    [estimate_costs_and_savings]. *)
Record estimated := mkEstimated {
  e_data : screenshot;
  original_tiles : Z;
  original_tokens : Z;
  original_cost : Q;
  halved_width_px : Z;
  halved_height_px : Z;
  halved_tiles : Z;
  halved_tokens : Z;
  halved_cost : Q;
  savings : Q
}.

(** The body of the loop of [estimate_costs_and_savings] for one entry. *)
Definition estimate_one (data : screenshot) : estimated :=
  let original_tiles := determine_tiles (width_px data) (height_px data) in
  let original_tokens := calculate_tokens_per_image original_tiles in
  let original_cost := calculate_cost original_tokens in
  let halved_width := Z.max 1 (width_px data / 2) in
  let halved_height := Z.max 1 (height_px data / 2) in
  let halved_tiles := determine_tiles halved_width halved_height in
  let halved_tokens := calculate_tokens_per_image halved_tiles in
  let halved_cost := calculate_cost halved_tokens in
  let savings := (original_cost - halved_cost)%Q in
  mkEstimated data original_tiles original_tokens original_cost
    halved_width halved_height halved_tiles halved_tokens halved_cost savings.

(** The loop itself, threading the two running totals; it returns the
    updated entries (the code mutates the dicts in place) and the totals. *)
Fixpoint estimate_loop (screenshot_data : list screenshot)
    (total_original_cost total_halved_cost : Q) : list estimated * (Q * Q) :=
  match screenshot_data with
  | [] => ([], (total_original_cost, total_halved_cost))
  | data :: rest =>
      let e := estimate_one data in
      let '(es, tot) :=
        estimate_loop rest (total_original_cost + original_cost e)%Q
                           (total_halved_cost + halved_cost e)%Q in
      (e :: es, tot)
  end.

(** [estimate_costs_and_savings(screenshot_data)]: the updated entries and
    the returned triple (total original, total halved, total savings). *)
Definition estimate_costs_and_savings (screenshot_data : list screenshot)
    : list estimated * (Q * Q * Q) :=
  let '(es, (total_original_cost, total_halved_cost)) :=
    estimate_loop screenshot_data 0%Q 0%Q in
  let total_savings := (total_original_cost - total_halved_cost)%Q in
  (es, (total_original_cost, total_halved_cost, total_savings)).

(** The estimate of a single image of the given size, as the spec's
    [estimate(width, height)] reads it: (tiles, tokens, cost). *)
Definition estimate (width height : Z) : Z * Z * Q :=
  let e := estimate_one (mkScreenshot "" width height 0) in
  (original_tiles e, original_tokens e, original_cost e).

(** Spec side: the ceiling of the true quotient, through [Qceiling]. *)
Definition spec_tiles (width height : Z) : Z :=
  Qceiling (inject_Z width / inject_Z 512)
  * Qceiling (inject_Z height / inject_Z 512).

(** The halved estimate of an entry is no larger than the original one. *)
Definition halved_le (e : estimated) : Prop :=
  halved_tiles e <= original_tiles e /\ halved_tokens e <= original_tokens e /\
  (halved_cost e <= original_cost e)%Q /\ (0 <= savings e)%Q.

End CountPngs.

(* ------------------------------------------------------------------ *)
(** ** app.py: the screenshot classifier and the rename transaction *)

Module App.

(** *** Python strings

    A Python [str] is modelled as a Stdlib [string] whose [ascii]
    characters are read as the code points U+0000..U+00FF (Latin-1). *)

(** [str.lower] on one code point of that range: A-Z and the Latin-1
    capitals U+00C0..U+00DE (except the sign U+00D7) move down by 32. *)
Definition py_lower_char (c : ascii) : ascii :=
  let n := nat_of_ascii c in
  if (((65 <=? n) && (n <=? 90)) || ((192 <=? n) && (n <=? 222) && negb (n =? 215)))%nat
  then ascii_of_nat (n + 32)%nat else c.

Fixpoint py_lower (s : string) : string :=
  match s with
  | EmptyString => EmptyString
  | String c s' => String (py_lower_char c) (py_lower s')
  end.

(** The code points [\s] matches in a [str] pattern: TAB..CR, U+001C..U+001F,
    SPACE, NEL (U+0085) and NO-BREAK SPACE (U+00A0). *)
Definition py_isspace (c : ascii) : bool :=
  let n := nat_of_ascii c in
  (((9 <=? n) && (n <=? 13)) || ((28 <=? n) && (n <=? 32)) || (n =? 133) || (n =? 160))%nat.

(** [re.sub(r'\s+', '', s)]: every run of whitespace is deleted, so every
    whitespace code point is. *)
Fixpoint strip_whitespace (s : string) : string :=
  match s with
  | EmptyString => EmptyString
  | String c s' => if py_isspace c then strip_whitespace s' else String c (strip_whitespace s')
  end.

(** [s.startswith(prefix)] *)
Fixpoint py_startswith (s prefix : string) {struct prefix} : bool :=
  match prefix, s with
  | EmptyString, _ => true
  | String c p', String d s' => Ascii.eqb c d && py_startswith s' p'
  | String _ _, EmptyString => false
  end.

(** [s.endswith(suffix)]: some suffix of [s] is [suffix]. *)
Fixpoint py_endswith (s suffix : string) : bool :=
  String.eqb s suffix ||
  match s with
  | EmptyString => false
  | String _ s' => py_endswith s' suffix
  end.

(** [sub in s]: [sub] starts at some position of [s]. *)
Fixpoint py_contains (s sub : string) : bool :=
  py_startswith s sub ||
  match s with
  | EmptyString => false
  | String _ s' => py_contains s' sub
  end.

(** *** [is_screenshot] (app.py lines 124-153) *)

Definition screenshot_indicators : list string :=
  ["screenshot"; "screen_shot"; "screenclip"; "capture"; "snip"].

Definition is_screenshot (filename : string) : bool :=
  let clean_name := strip_whitespace (py_lower filename) in
  if negb (py_endswith clean_name ".png") then false
  else existsb (fun indicator => py_contains clean_name indicator) screenshot_indicators.

(** Spec side (section 4.1): the normalised name ends in [.png] and
    contains one of the given indicator strings. *)
Definition spec_is_screenshot (indicators : list string) (filename : string) : Prop :=
  let clean := strip_whitespace (py_lower filename) in
  (exists pre, clean = String.append pre ".png") /\
  Exists (fun i => exists a b, clean = String.append a (String.append i b)) indicators.

(** *** The folder and the effects of [process_screenshots]

    The folder is a flat namespace: a finite map from file names to files.
    A file is its image content together with the [Description] text
    chunk it may carry.  Files are identified by their name in the folder;
    [os.path.join(folder_path, name)] only matters for the reported path. *)

Record file := mkFile {
  data : string;
  description : option string
}.

(** [usage_info] as built by [get_image_content]. *)
Record usage := mkUsage {
  prompt_tokens : Z;
  completion_tokens : Z;
  total_tokens : Z
}.

(** Exceptions raised inside the [try] block of [process_screenshots]. *)
Inductive error :=
  | FileNotFoundError
  | OSError
  | ValueError
  | UnicodeEncodeError
  | APIError (msg : string).

(** Invocations of the two external capabilities. *)
Inductive event :=
  | CallContent (image_path : string)
  | CallName (image_content : string).

(** Outcome of [img.save(image_path, pnginfo=metadata)]: the file as it is
    left on disk, and the exception when the save raised. *)
Inductive save_outcome :=
  | Saved (f : file)
  | SaveFailed (f : file) (e : error).

(** How the operating system completes [os.rename(src, dst)] for a file of
    the folder, as a function of the target path [dst]: the path resolves
    to the entry [name] of the folder (for [/shots/x.png], but also for
    [/shots/./x.png]); or to a place outside the folder's own entries (an
    existing subdirectory), so the file leaves the folder; or the call
    raises ([ValueError] on a NUL byte, [OSError] on an over-long name, a
    missing directory or a directory in the way).  The directories and the
    limits this depends on are not part of the folder model, and the batch
    never changes them.  A file already at the target entry is replaced, as
    [rename(2)] does on POSIX systems. *)
Inductive rename_outcome :=
  | RenameInFolder (name : string)
  | RenameOutside
  | RenameRaises (e : error).

(** One row of [processed_files]. *)
Record processed := mkProcessed {
  original_path : string;
  new_name : string;
  p_description : string;
  p_prompt_tokens : Z;
  p_total_tokens : Z
}.

Record state := mkState {
  files : gmap string file;
  calls : list event
}.

(** A Python statement sequence: state changes made before an exception
    stay in place, as they do in Python. *)
Definition M (A : Type) : Type := state -> state * (A + error).

Global Instance M_ret : MRet M := fun A a st => (st, inl a).
Global Instance M_bind : MBind M := fun A B k m st =>
  match m st with
  | (st', inl a) => k a st'
  | (st', inr e) => (st', inr e)
  end.

Definition raise {A} (e : error) : M A := fun st => (st, inr e).

Definition log_call (ev : event) (st : state) : state :=
  mkState (files st) (calls st ++ [ev]).

Definition set_file (name : string) (f : file) (st : state) : state :=
  mkState (<[name := f]> (files st)) (calls st).

(** [os.path.join(a, b)] *)
Definition os_path_join (a b : string) : string :=
  if py_startswith b "/" then b
  else if String.eqb a "" || py_endswith a "/" then String.append a b
  else String.append a (String.append "/" b).

Section Transaction.

(** The external capabilities: the vision call of [get_image_content]
    (including [encode_image]) on the file's content, the chat call of
    [get_new_name], and Pillow's [img.save] with a [Description] chunk. *)
Variable vision : file -> bool -> (string * usage) + error.
Variable namer : string -> string + error.
Variable png_save : file -> string -> save_outcome.
(** The operating system's side of [os.rename], see [rename_outcome]. *)
Variable rename_dst : string -> rename_outcome.
(** Whether [print] can write a text to [sys.stdout]; it raises when the
    stream's encoding cannot represent the text. *)
Variable stdout_ok : string -> bool.
(** [str(e)] *)
Variable error_str : error -> string.

(** [print(s)] *)
Definition py_print (s : string) : M unit := fun st =>
  if stdout_ok s then (st, inl tt) else (st, inr UnicodeEncodeError).

(** [os.rename(src, dst)] for the folder entry [src]: a missing source
    raises; otherwise the file goes where the system resolves [dst], and a
    file already at that entry is replaced. *)
Definition os_rename (src dst : string) : M unit := fun st =>
  match files st !! src with
  | None => (st, inr FileNotFoundError)
  | Some f =>
      match rename_dst dst with
      | RenameInFolder name =>
          (mkState (<[name := f]> (delete src (files st))) (calls st), inl tt)
      | RenameOutside => (mkState (delete src (files st)) (calls st), inl tt)
      | RenameRaises e => (st, inr e)
      end
  end.

(** [get_image_content(image_path, resize)] *)
Definition get_image_content (image_path : string) (resize : bool)
    : M (string * usage) := fun st =>
  match files st !! image_path with
  | None => (st, inr FileNotFoundError)
  | Some f => (log_call (CallContent image_path) st, vision f resize)
  end.

(** [get_new_name(image_content)] *)
Definition get_new_name (image_content : string) : M string := fun st =>
  (log_call (CallName image_content) st, namer image_content).

(** [add_metadata(image_path, content)] for the folder entry [filename],
    whose path is [os.path.join(folder_path, filename)].  [print(content)]
    comes before the [try]; every exception of the [try] block is caught
    and printed, and that [print] may raise in turn. *)
Definition add_metadata (folder_path filename content : string) : M unit := fun st =>
  let image_path := os_path_join folder_path filename in
  let report (e : error) :=
    String.append "Error adding metadata to "
      (String.append image_path (String.append ": " (error_str e))) in
  match py_print content st with
  | (st0, inr e) => (st0, inr e)
  | (st0, inl _) =>
      match files st0 !! filename with
      | None => py_print (report FileNotFoundError) st0
      | Some f =>
          match png_save f content with
          | Saved f' => (set_file filename f' st0, inl tt)
          | SaveFailed f' e => py_print (report e) (set_file filename f' st0)
          end
      end
  end.

(** The statements of the [try] block of [process_screenshots] up to the
    rename; the row they build.  The folder entry [filename] stands for
    [file_path = os.path.join(folder_path, filename)]. *)
Definition process_file (folder_path : string) (resize_for_api : bool)
    (filename : string) : M processed :=
  let file_path := filename in
  '(content, usage_info) ← get_image_content file_path resize_for_api;
  new_name ← get_new_name content;
  add_metadata folder_path file_path content;;
  let new_file_path := os_path_join folder_path (String.append new_name ".png") in
  os_rename file_path new_file_path;;
  mret (mkProcessed (os_path_join folder_path file_path)
          (String.append new_name ".png") content
          (prompt_tokens usage_info) (total_tokens usage_info)).

(** [print(f"Error processing {filename}: {str(e)}")] in the handler. *)
Definition report_error (filename : string) (e : error) : M unit :=
  py_print (String.append "Error processing "
              (String.append filename (String.append ": " (error_str e)))).

(** One iteration: the [try] block (the statements above, then
    [processed_files.append(...)] and the [Processed] line) with its
    [except Exception] handler.  The result is what the iteration appends
    to [processed_files]: the row is appended before the [Processed] line
    is printed, so it stays when that [print] raises.  An exception of the
    handler's own [print] escapes the loop. *)
Definition try_process (folder_path : string) (resize_for_api : bool)
    (filename : string) : M (list processed) := fun st =>
  match process_file folder_path resize_for_api filename st with
  | (st1, inr e) => (report_error filename e;; mret []) st1
  | (st1, inl p) =>
      match py_print (String.append "Processed: "
                        (String.append filename (String.append " -> " (new_name p)))) st1 with
      | (st2, inl _) => (st2, inl [p])
      | (st2, inr e) => (report_error filename e;; mret [p]) st2
      end
  end.

(** The [for filename in os.listdir(folder_path)] loop over the listing
    taken once at the start; an exception escaping an iteration ends
    [process_screenshots] without a result. *)
Fixpoint process_list (folder_path : string) (resize_for_api : bool)
    (names : list string) : M (list processed) :=
  match names with
  | [] => mret []
  | filename :: rest =>
      if is_screenshot filename then
        ps1 ← try_process folder_path resize_for_api filename;
        ps2 ← process_list folder_path resize_for_api rest;
        mret (ps1 ++ ps2)
      else process_list folder_path resize_for_api rest
  end.

(** [os.listdir]: the names of the folder, in an order the model fixes. *)
Definition os_listdir (st : state) : list string := (map_to_list (files st)).*1.

(** [process_screenshots(folder_path, resize_for_api)] *)
Definition process_screenshots (folder_path : string) (resize_for_api : bool)
    : M (list processed) := fun st =>
  process_list folder_path resize_for_api (os_listdir st) st.

End Transaction.

(** The file a call of [img.save] leaves on disk, whether it raised or not. *)
Definition saved_file (o : save_outcome) : file :=
  match o with
  | Saved f => f
  | SaveFailed f _ => f
  end.

(** Concrete capabilities and folders for the scenarios of section 8 of
    the specification. *)
Definition demo_vision (f : file) (resize : bool) : (string * usage) + error :=
  inl ("A sales chart"%string, mkUsage 100 20 120).

Definition demo_namer (image_content : string) : string + error :=
  inl "sales_chart_q1"%string.

Definition demo_vision_fail (f : file) (resize : bool) : (string * usage) + error :=
  inr (APIError "rate limit exceeded").

Definition demo_save (f : file) (content : string) : save_outcome :=
  Saved (mkFile (data f) (Some content)).

Definition demo_save_fail (f : file) (content : string) : save_outcome :=
  SaveFailed f OSError.

(** The length of a name in bytes once encoded in UTF-8. *)
Fixpoint utf8_length (s : string) : nat :=
  match s with
  | EmptyString => 0
  | String c s' => ((if (nat_of_ascii c <? 128)%nat then 1 else 2) + utf8_length s')%nat
  end.

(** The system of the scenarios, for the folder [/shots]: a target
    [/shots/name] with a plain [name] resolves to the entry [name]; a NUL
    byte raises [ValueError] and a name over 255 bytes raises [OSError].
    Targets through a separator do not occur in the scenarios and are
    refused here. *)
Definition demo_rename (dst : string) : rename_outcome :=
  if py_startswith dst "/shots/" then
    let name := substring 7 (String.length dst - 7) dst in
    if py_contains name (String (ascii_of_nat 0) EmptyString) then RenameRaises ValueError
    else if (255 <? utf8_length name)%nat then RenameRaises OSError
    else if py_contains name "/" then RenameRaises OSError
    else RenameInFolder name
  else RenameRaises OSError.

(** A UTF-8 terminal: every text can be printed. *)
Definition demo_stdout (s : string) : bool := true.

Definition demo_error_str (e : error) : string :=
  match e with
  | FileNotFoundError => "No such file or directory"
  | OSError => "Operation failed"
  | ValueError => "embedded null byte"
  | UnicodeEncodeError => "character maps to <undefined>"
  | APIError msg => msg
  end.


(** A folder holding one screenshot already tagged by a previous run. *)
Definition tagged_folder : state :=
  mkState {["Screenshot 1.png" := mkFile "pixels-A" (Some "A sales chart")]} [].

(** A folder holding one untagged screenshot. *)
Definition single_folder : state :=
  mkState {["Screenshot 1.png" := mkFile "pixels-A" None]} [].


(** A folder holding an untagged screenshot and a text file. *)
Definition notes_folder : state :=
  mkState (<["notes.txt" := mkFile "text" None]> (files single_folder)) [].

(** The files sent to the content-extraction capability, in call order. *)
Fixpoint content_calls (evs : list event) : list string :=
  match evs with
  | [] => []
  | CallContent image_path :: rest => image_path :: content_calls rest
  | CallName _ :: rest => content_calls rest
  end.

(** *** [encode_image] (app.py lines 26-43): the size of the image sent

    [original_width * 0.5 >= 512] is exact on image dimensions, so it is
    [1024 <= original_width]; [int(original_width * 0.5)] truncates
    towards zero, which is [Z.quot w 2]. *)
Definition encode_image_size (original_width original_height : Z) (resize : bool) : Z * Z :=
  if resize then
    if (1024 <=? original_width) && (1024 <=? original_height)
    then (Z.quot original_width 2, Z.quot original_height 2)
    else (original_width, original_height)
  else (original_width, original_height).

End App.

(* ------------------------------------------------------------------ *)
(** ** CountPngs.py: which files [analyze_screenshot_pngs] counts *)

Module CountPngsScan.
Import App.

(** [s.rfind(c)] for a one-character string: the last index of [c], or -1. *)
Fixpoint rfind_from (c : ascii) (s : string) (i acc : Z) : Z :=
  match s with
  | EmptyString => acc
  | String d s' => rfind_from c s' (i + 1) (if Ascii.eqb c d then i else acc)
  end.

Definition py_rfind (c : ascii) (s : string) : Z := rfind_from c s 0 (-1).

(** Every character of [s] is [.]. *)
Fixpoint only_dots (s : string) : bool :=
  match s with
  | EmptyString => true
  | String d s' => Ascii.eqb d "." && only_dots s'
  end.

(** [os.path.splitext(p)] (posixpath): split at the last [.] after the
    last [/], unless everything between them is dots (a leading-dot name
    has no extension).  The [while] loop of [genericpath._splitext] looks
    for a non-dot character in [p[sepIndex+1:dotIndex]]. *)
Definition splitext (p : string) : string * string :=
  let sepIndex := py_rfind "/" p in
  let dotIndex := py_rfind "." p in
  if sepIndex <? dotIndex then
    if negb (only_dots (substring (Z.to_nat (sepIndex + 1))
                                  (Z.to_nat (dotIndex - sepIndex - 1)) p))
    then (substring 0 (Z.to_nat dotIndex) p,
          substring (Z.to_nat dotIndex) (String.length p - Z.to_nat dotIndex) p)
    else (p, EmptyString)
  else (p, EmptyString).

(** The file-name test of [analyze_screenshot_pngs] (lines 39-41). *)
Definition is_counted_png (file : string) : bool :=
  py_endswith (py_lower file) ".png" &&
  (let name_without_extension := py_lower (fst (splitext file)) in
   py_contains name_without_extension "screenshot"
   || py_contains name_without_extension "screen shot").

End CountPngsScan.

(* ------------------------------------------------------------------ *)
(** ** checkmetatags.py: [read_metadata_from_folder] *)

Module CheckMetaTags.
Import App.

Section Read.

(** Whether [Image.open] succeeds on a file. *)
Variable image_opens : file -> bool.

(** The loop of [read_metadata_from_folder] over the listing: the printed
    (image, description) pairs, and whether an exception ended the loop.
    The [try] encloses the whole loop, so the first exception stops it. *)
Fixpoint read_metadata_loop (folder : gmap string file) (names : list string)
    : list (string * string) * bool :=
  match names with
  | [] => ([], false)
  | filename :: rest =>
      if py_endswith (py_lower filename) ".png" then
        match folder !! filename with
        | None => ([], true)
        | Some img =>
            if image_opens img then
              let description := default "No description found" (description img) in
              let '(lines, raised) := read_metadata_loop folder rest in
              ((filename, description) :: lines, raised)
            else ([], true)
        end
      else read_metadata_loop folder rest
  end.

End Read.

End CheckMetaTags.

(* ================================================================== *)
(** * Properties *)

Module CountPngsFacts.
Import CountPngs.

Lemma py_ceil_div_Qceiling (a : Z) :
  py_ceil_div a TILE_SIZE_PIXELS = Qceiling (inject_Z a / inject_Z 512).
Proof.
  unfold py_ceil_div, Qceiling, Qfloor, TILE_SIZE_PIXELS; simpl.
  now rewrite Z.mul_1_r.
Qed.

Lemma py_ceil_div_pos_mono (a b : Z) :
  0 < a <= b -> 1 <= py_ceil_div a TILE_SIZE_PIXELS <= py_ceil_div b TILE_SIZE_PIXELS.
Proof.
  unfold py_ceil_div, TILE_SIZE_PIXELS; intros [Ha Hab].
  assert (Hm : (- b) / 512 <= (- a) / 512) by (apply Z.div_le_mono; lia).
  assert (Hn : (- a) / 512 <= (- 1) / 512) by (apply Z.div_le_mono; lia).
  change ((-1) / 512) with (-1) in Hn. lia.
Qed.

Lemma determine_tiles_mono (w h w' h' : Z) :
  0 < w' <= w -> 0 < h' <= h -> 1 <= determine_tiles w' h' <= determine_tiles w h.
Proof.
  intros Hw Hh; unfold determine_tiles.
  pose proof (py_ceil_div_pos_mono _ _ Hw).
  pose proof (py_ceil_div_pos_mono _ _ Hh). nia.
Qed.

Lemma halve_bounds (w : Z) : 0 < w -> 0 < Z.max 1 (w / 2) <= w.
Proof.
  intros Hw. assert (w / 2 <= w) by (apply Z.div_le_upper_bound; lia). lia.
Qed.

Lemma calculate_cost_mono (t1 t2 : Z) :
  t1 <= t2 -> (calculate_cost t1 <= calculate_cost t2)%Q.
Proof.
  intros Ht. unfold calculate_cost, PRICE_PER_MILLION_TOKENS, Qdiv.
  apply Qmult_le_compat_r; [| discriminate].
  apply Qmult_le_compat_r; [| discriminate].
  now rewrite <- Zle_Qle.
Qed.

Lemma estimate_one_halved_le (data : screenshot) :
  0 < width_px data -> 0 < height_px data -> halved_le (estimate_one data).
Proof.
  intros Hw Hh.
  pose proof (halve_bounds _ Hw); pose proof (halve_bounds _ Hh).
  pose proof (determine_tiles_mono (width_px data) (height_px data)
                (Z.max 1 (width_px data / 2)) (Z.max 1 (height_px data / 2))
                ltac:(lia) ltac:(lia)) as Ht.
  assert (Htok : calculate_tokens_per_image (determine_tiles (Z.max 1 (width_px data / 2))
                                               (Z.max 1 (height_px data / 2)))
                 <= calculate_tokens_per_image (determine_tiles (width_px data) (height_px data)))
    by (unfold calculate_tokens_per_image, TILE_TOKENS; lia).
  pose proof (calculate_cost_mono _ _ Htok) as Hc.
  unfold halved_le, estimate_one; simpl. repeat split; try lia; try exact Hc.
  apply Qle_minus_iff in Hc. exact Hc.
Qed.

Lemma estimate_loop_halved_le (l : list screenshot) (to th : Q) :
  Forall (fun d => 0 < width_px d /\ 0 < height_px d) l -> (th <= to)%Q ->
  let '(es, (to', th')) := estimate_loop l to th in
  Forall halved_le es /\ (th' <= to')%Q.
Proof.
  revert to th. induction l as [| d l IH]; intros to th Hall Hle; simpl.
  - split; [constructor | exact Hle].
  - inversion Hall as [| ? ? [Hw Hh] Hrest]; subst.
    pose proof (estimate_one_halved_le d Hw Hh) as Hd.
    assert (Hle' : (th + halved_cost (estimate_one d) <= to + original_cost (estimate_one d))%Q)
      by (apply Qplus_le_compat; [exact Hle | apply Hd]).
    specialize (IH _ _ Hrest Hle').
    destruct (estimate_loop l _ _) as [es [to' th']].
    destruct IH as [IHes IHle]. split; [constructor; assumption | exact IHle].
Qed.

(** C6: the tile count is the product of the ceilings of [width / 512]
    and [height / 512], the token count is [2833 + 5667 * tiles] and the
    cost is [tokens / 1_000_000 * 0.15]; [estimate(512, 512)] gives 1 tile
    and 8500 tokens and [estimate(1920, 1080)] 12 tiles and 70837 tokens.
    (The formulas hold for every width and height, positive or not.) *)
Theorem C6_estimate_formulas (width height : Z) :
  estimate width height =
    (spec_tiles width height,
     2833 + 5667 * spec_tiles width height,
     (inject_Z (2833 + 5667 * spec_tiles width height) / inject_Z 1000000 * (15 # 100))%Q)
  /\ fst (estimate 512 512) = (1, 8500)
  /\ fst (estimate 1920 1080) = (12, 70837).
Proof.
  split; [| split; reflexivity].
  unfold estimate, estimate_one, determine_tiles, spec_tiles; simpl.
  rewrite !py_ceil_div_Qceiling. reflexivity.
Qed.

(** C7 (counterexample): [estimate(-1, 100)] raises no error; it returns
    an estimate with 0 tiles and 2833 tokens. *)
Lemma C7_no_invalid_dimension_error :
  fst (estimate (-1) 100) = (0, 2833)
  /\ estimate_costs_and_savings [mkScreenshot "Screenshot.png" (-1) 100 0] =
     ([estimate_one (mkScreenshot "Screenshot.png" (-1) 100 0)],
      (calculate_cost 2833, calculate_cost 8500,
       (0 + calculate_cost 2833 - (0 + calculate_cost 8500))%Q)).
Proof. split; reflexivity. Qed.

(** C7 (amended): the estimator has no dimension check.  When
    [-512 < width <= 0] or [-512 < height <= 0] it returns an estimate of
    0 original tiles and 2833 original tokens, and a non-positive
    dimension halves to 1. *)
Theorem C7_nonpositive_dimension_estimate (data : screenshot) :
  (-512 < width_px data <= 0 \/ -512 < height_px data <= 0) ->
  let e := estimate_one data in
  original_tiles e = 0 /\ original_tokens e = 2833
  /\ (width_px data <= 0 -> halved_width_px e = 1)
  /\ (height_px data <= 0 -> halved_height_px e = 1).
Proof.
  intros H; unfold estimate_one, determine_tiles, calculate_tokens_per_image,
    py_ceil_div, BASE_TOKENS_PER_IMAGE, TILE_TOKENS, TILE_SIZE_PIXELS; simpl.
  assert (Hz : forall a, -512 < a <= 0 -> - ((- a) / 512) = 0).
  { intros a Ha. rewrite Z.div_small by lia. reflexivity. }
  assert (Hhalf : forall a, a <= 0 -> Z.max 1 (a / 2) = 1).
  { intros a Ha. assert (a / 2 <= 0) by (apply Z.div_le_upper_bound; lia). lia. }
  assert (Ht : - ((- width_px data) / 512) * - ((- height_px data) / 512) = 0).
  { destruct H as [H | H]; [rewrite (Hz (width_px data)) | rewrite (Hz (height_px data))];
    auto; lia. }
  rewrite Ht. repeat split; [apply Hhalf | apply Hhalf].
Qed.

Lemma C7_nonpositive_dimension_estimate_witness :
  (-512 < -1 <= 0 \/ -512 < 100 <= 0) /\
  original_tiles (estimate_one (mkScreenshot "Screenshot.png" (-1) 100 0)) = 0.
Proof.
  assert (H : -512 < width_px (mkScreenshot "Screenshot.png" (-1) 100 0) <= 0
              \/ -512 < height_px (mkScreenshot "Screenshot.png" (-1) 100 0) <= 0)
    by (simpl; lia).
  split; [exact H |].
  exact (proj1 (C7_nonpositive_dimension_estimate (mkScreenshot "Screenshot.png" (-1) 100 0) H)).
Defined.

(** C8: the halved dimensions are [max(1, dim // 2)], never 0 (a width of
    1 halves to 1), and the savings are original cost minus halved cost. *)
Theorem C8_halved_dimensions (data : screenshot) :
  let e := estimate_one data in
  halved_width_px e = Z.max 1 (width_px data / 2)
  /\ halved_height_px e = Z.max 1 (height_px data / 2)
  /\ 1 <= halved_width_px e /\ 1 <= halved_height_px e
  /\ savings e = (original_cost e - halved_cost e)%Q
  /\ halved_width_px (estimate_one (mkScreenshot (file_path data) 1 (height_px data) (size_bytes data))) = 1.
Proof.
  simpl. repeat split; lia.
Qed.

(** C10: for positive dimensions the halved estimate never costs more:
    per entry halved tiles, tokens and cost are at most the original ones
    and the savings are non-negative, and so are the batch total savings. *)
Theorem C10_halved_never_costlier (screenshot_data : list screenshot) :
  Forall (fun d => 0 < width_px d /\ 0 < height_px d) screenshot_data ->
  let '(es, (total_original_cost, total_halved_cost, total_savings)) :=
    estimate_costs_and_savings screenshot_data in
  Forall halved_le es
  /\ (total_halved_cost <= total_original_cost)%Q
  /\ (0 <= total_savings)%Q.
Proof.
  intros Hall. unfold estimate_costs_and_savings.
  pose proof (estimate_loop_halved_le screenshot_data 0 0 Hall (Qle_refl 0)) as H.
  destruct (estimate_loop screenshot_data 0 0) as [es [to th]].
  destruct H as [Hes Hle]. repeat split; [exact Hes | exact Hle |].
  apply Qle_minus_iff in Hle. exact Hle.
Qed.

Lemma C10_halved_never_costlier_witness :
  Forall (fun d => 0 < width_px d /\ 0 < height_px d)
    [mkScreenshot "Screenshot 1.png" 1920 1080 0; mkScreenshot "Screenshot 2.png" 1 1 0]
  /\ Forall halved_le
       (fst (estimate_costs_and_savings
               [mkScreenshot "Screenshot 1.png" 1920 1080 0; mkScreenshot "Screenshot 2.png" 1 1 0])).
Proof.
  assert (H : Forall (fun d => 0 < width_px d /\ 0 < height_px d)
    [mkScreenshot "Screenshot 1.png" 1920 1080 0; mkScreenshot "Screenshot 2.png" 1 1 0])
    by (repeat constructor).
  split; [exact H |].
  exact (proj1 (C10_halved_never_costlier _ H)).
Defined.

End CountPngsFacts.

Module AppClassifierFacts.
Import App.

Lemma py_startswith_spec (s prefix : string) :
  py_startswith s prefix = true <-> exists r, s = String.append prefix r.
Proof.
  revert s. induction prefix as [| c p IH]; intros s; simpl.
  - split; [intros _; now exists s | reflexivity].
  - destruct s as [| d s']; simpl.
    + split; [discriminate | intros [r Hr]; discriminate].
    + rewrite andb_true_iff, Ascii.eqb_eq, IH. split.
      * intros [-> [r ->]]. now exists r.
      * intros [r Hr]. injection Hr as -> ->. split; [reflexivity | now exists r].
Qed.

Lemma py_endswith_unfold (s suffix : string) :
  py_endswith s suffix =
  String.eqb s suffix ||
  match s with EmptyString => false | String _ s' => py_endswith s' suffix end.
Proof. destruct s; reflexivity. Qed.

Lemma py_contains_unfold (s sub : string) :
  py_contains s sub =
  py_startswith s sub ||
  match s with EmptyString => false | String _ s' => py_contains s' sub end.
Proof. destruct s; reflexivity. Qed.

Lemma py_endswith_spec (s suffix : string) :
  py_endswith s suffix = true <-> exists pre, s = String.append pre suffix.
Proof.
  induction s as [| c s' IH]; rewrite py_endswith_unfold, orb_true_iff, String.eqb_eq;
    cbv beta iota.
  - split.
    + intros [<- | H]; [now exists ""%string | discriminate].
    + intros [[| a pre] Hpre]; [left; exact Hpre | discriminate].
  - rewrite IH. split.
    + intros [<- | [pre ->]]; [now exists ""%string | now exists (String c pre)].
    + intros [[| a pre] Hpre]; [left; exact Hpre |].
      simpl in Hpre. injection Hpre as -> ->. right. now exists pre.
Qed.

Lemma py_contains_spec (s sub : string) :
  py_contains s sub = true <-> exists a b, s = String.append a (String.append sub b).
Proof.
  induction s as [| c s' IH];
    rewrite py_contains_unfold, orb_true_iff, py_startswith_spec; cbv beta iota.
  - split.
    + intros [[r Hr] | H]; [now exists ""%string, r | discriminate].
    + intros [[| x a] [b Hab]]; [left; now exists b | discriminate].
  - rewrite IH. split.
    + intros [[r Hr] | [a [b ->]]].
      * now exists ""%string, r.
      * now exists (String c a), b.
    + intros [[| x a] [b Hab]]; [left; now exists b |].
      simpl in Hab. injection Hab as -> ->. right. now exists a, b.
Qed.

(** C5: [is_screenshot filename] is true exactly when the lower-cased,
    whitespace-stripped name ends in [.png] and contains one of the
    indicator strings [screenshot], [screen_shot], [screenclip], [capture],
    [snip] (the code's fixed indicator list). *)
Theorem C5_is_screenshot_spec (filename : string) :
  is_screenshot filename = true <-> spec_is_screenshot screenshot_indicators filename.
Proof.
  unfold is_screenshot, spec_is_screenshot.
  set (clean := strip_whitespace (py_lower filename)).
  rewrite <- py_endswith_spec.
  destruct (py_endswith clean ".png"); cbv beta iota delta [negb].
  - rewrite existsb_exists, Stdlib.Lists.List.Exists_exists. split.
    + intros [i [Hi Hc]]. split; [reflexivity |].
      exists i. split; [exact Hi | now apply py_contains_spec].
    + intros [_ [i [Hi Hc]]]. exists i. split; [exact Hi | now apply py_contains_spec].
  - split; [discriminate | intros [H _]; exact H].
Qed.

End AppClassifierFacts.

Module AppTransactionFacts.
Import App.

Section Capabilities.
Variable vision : file -> bool -> (string * usage) + error.
Variable namer : string -> string + error.
Variable png_save : file -> string -> save_outcome.
Variable rename_dst : string -> rename_outcome.
Variable stdout_ok : string -> bool.
Variable error_str : error -> string.

(** *** The steps of one iteration *)

Lemma add_metadata_calls (folder_path filename content : string) (st : state) :
  calls (fst (add_metadata png_save stdout_ok error_str folder_path filename content st))
  = calls st.
Proof.
  unfold add_metadata, py_print.
  destruct (stdout_ok content); simpl; [| reflexivity].
  destruct (files st !! filename) as [f |]; [| now destruct (stdout_ok _)].
  destruct (png_save f content) as [f' | f' e]; [reflexivity |].
  now destruct (stdout_ok _).
Qed.

(** [add_metadata] changes at most the entry it writes, and only when that
    entry is present. *)
Lemma add_metadata_files (folder_path filename content : string) (st : state) :
  files (fst (add_metadata png_save stdout_ok error_str folder_path filename content st))
  = files st
  \/ exists f f', files st !! filename = Some f
       /\ files (fst (add_metadata png_save stdout_ok error_str folder_path filename content st))
          = <[filename := f']> (files st).
Proof.
  unfold add_metadata, py_print.
  destruct (stdout_ok content); simpl; [| now left].
  destruct (files st !! filename) as [f |] eqn:Hf; [| left; now destruct (stdout_ok _)].
  right. destruct (png_save f content) as [f' | f' e].
  - now exists f, f'.
  - exists f, f'. now destruct (stdout_ok _).
Qed.

(** With a stream that prints everything, [add_metadata] on a present
    entry returns and leaves there the file [img.save] left. *)
Lemma add_metadata_prints (folder_path filename content : string) (st : state) (f : file) :
  (forall s, stdout_ok s = true) ->
  files st !! filename = Some f ->
  add_metadata png_save stdout_ok error_str folder_path filename content st
  = (set_file filename (saved_file (png_save f content)) st, inl tt).
Proof.
  intros Hout Hf. unfold add_metadata, py_print. rewrite Hout. simpl. rewrite Hf.
  destruct (png_save f content) as [f' | f' e]; [reflexivity |].
  simpl. now rewrite Hout.
Qed.

Lemma add_metadata_print_fails (folder_path filename content : string) (st : state) :
  stdout_ok content = false ->
  add_metadata png_save stdout_ok error_str folder_path filename content st
  = (st, inr UnicodeEncodeError).
Proof. intros H. unfold add_metadata, py_print. now rewrite H. Qed.

Lemma os_rename_present (src dst : string) (st : state) (f : file) :
  files st !! src = Some f ->
  os_rename rename_dst src dst st =
  match rename_dst dst with
  | RenameInFolder name => (mkState (<[name := f]> (delete src (files st))) (calls st), inl tt)
  | RenameOutside => (mkState (delete src (files st)) (calls st), inl tt)
  | RenameRaises e => (st, inr e)
  end.
Proof. intros Hf. unfold os_rename. now rewrite Hf. Qed.

Lemma os_rename_calls (src dst : string) (st : state) :
  calls (fst (os_rename rename_dst src dst st)) = calls st.
Proof.
  unfold os_rename. destruct (files st !! src); [| reflexivity].
  now destruct (rename_dst dst).
Qed.

Lemma os_rename_returns (src dst : string) (st : state) :
  snd (os_rename rename_dst src dst st) = inl tt ->
  forall e, rename_dst dst <> RenameRaises e.
Proof.
  unfold os_rename. destruct (files st !! src); [| discriminate].
  destruct (rename_dst dst); simpl; congruence.
Qed.

(** The statements of the [try] block up to the rename, one after the
    other. *)
Lemma process_file_eq (folder_path : string) (resize : bool) (filename : string) (st : state) :
  process_file vision namer png_save rename_dst stdout_ok error_str folder_path resize filename st =
  match files st !! filename with
  | None => (st, inr FileNotFoundError)
  | Some f =>
      let st1 := log_call (CallContent filename) st in
      match vision f resize with
      | inr e => (st1, inr e)
      | inl (content, u) =>
          let st2 := log_call (CallName content) st1 in
          match namer content with
          | inr e => (st2, inr e)
          | inl nm =>
              match add_metadata png_save stdout_ok error_str folder_path filename content st2 with
              | (st3, inr e) => (st3, inr e)
              | (st3, inl _) =>
                  match os_rename rename_dst filename
                          (os_path_join folder_path (String.append nm ".png")) st3 with
                  | (st4, inr e) => (st4, inr e)
                  | (st4, inl _) =>
                      (st4, inl (mkProcessed (os_path_join folder_path filename)
                                   (String.append nm ".png") content
                                   (prompt_tokens u) (total_tokens u)))
                  end
              end
          end
      end
  end.
Proof.
  unfold process_file, mbind, mret, M_bind, M_ret, get_image_content, get_new_name.
  destruct (files st !! filename) as [f |]; [| reflexivity].
  destruct (vision f resize) as [[content u] | e]; [| reflexivity].
  destruct (namer content) as [nm | e]; [| reflexivity].
  destruct (add_metadata _ _ _ _ _ _ _) as [st3 [[] | e]]; [| reflexivity].
  destruct (os_rename _ _ _ _) as [st4 [[] | e]]; reflexivity.
Qed.

(** The calls one iteration makes. *)
Lemma process_file_calls (folder_path : string) (resize : bool) (filename : string) (st : state) :
  calls (fst (process_file vision namer png_save rename_dst stdout_ok error_str
                folder_path resize filename st)) =
  match files st !! filename with
  | None => calls st
  | Some f =>
      match vision f resize with
      | inr _ => calls st ++ [CallContent filename]
      | inl (content, _) => calls st ++ [CallContent filename; CallName content]
      end
  end.
Proof.
  rewrite process_file_eq.
  destruct (files st !! filename) as [f |]; [| reflexivity].
  destruct (vision f resize) as [[content u] | e]; [| reflexivity].
  assert (Hc : calls (log_call (CallName content) (log_call (CallContent filename) st))
               = calls st ++ [CallContent filename; CallName content])
    by (simpl; now rewrite <- app_assoc).
  destruct (namer content) as [nm | e]; [| exact Hc].
  cbv zeta.
  pose proof (add_metadata_calls folder_path filename content
                (log_call (CallName content) (log_call (CallContent filename) st))) as H3.
  destruct (add_metadata _ _ _ _ _ _ _) as [st3 [[] | e]]; simpl in H3 |- *;
    [| rewrite H3; now rewrite <- app_assoc].
  pose proof (os_rename_calls filename (os_path_join folder_path (String.append nm ".png")) st3)
    as H4.
  destruct (os_rename _ _ _ _) as [st4 [[] | e]]; simpl in H4 |- *;
    rewrite H4, H3; now rewrite <- app_assoc.
Qed.

(** A reported row comes from a present file whose extraction and naming
    returned, and whose rename did not raise. *)
Lemma process_file_row (folder_path : string) (resize : bool) (filename : string) (st : state)
    (p : processed) :
  snd (process_file vision namer png_save rename_dst stdout_ok error_str
         folder_path resize filename st) = inl p ->
  exists f u nm, files st !! filename = Some f
    /\ vision f resize = inl (p_description p, u)
    /\ namer (p_description p) = inl nm
    /\ new_name p = String.append nm ".png"
    /\ original_path p = os_path_join folder_path filename
    /\ (forall e, rename_dst (os_path_join folder_path (new_name p)) <> RenameRaises e).
Proof.
  rewrite process_file_eq.
  destruct (files st !! filename) as [f |]; [| discriminate].
  destruct (vision f resize) as [[content u] | e] eqn:Hv; [| discriminate].
  destruct (namer content) as [nm | e] eqn:Hn; [| discriminate].
  cbv zeta.
  destruct (add_metadata _ _ _ _ _ _ _) as [st3 [[] | e]]; [| discriminate].
  pose proof (os_rename_returns filename (os_path_join folder_path (String.append nm ".png")) st3)
    as Hr.
  destruct (os_rename _ _ _ _) as [st4 [[] | e]]; [| discriminate].
  simpl. intros H. injection H as <-. simpl.
  exists f, u, nm. repeat split; auto.
Qed.

(** The handler and the [Processed] line only print: the folder and the
    calls are those the [try] block left. *)
Lemma try_process_fst (folder_path : string) (resize : bool) (filename : string) (st : state) :
  fst (try_process vision namer png_save rename_dst stdout_ok error_str
         folder_path resize filename st)
  = fst (process_file vision namer png_save rename_dst stdout_ok error_str
           folder_path resize filename st).
Proof.
  unfold try_process, report_error, py_print, mbind, mret, M_bind, M_ret.
  destruct (process_file _ _ _ _ _ _ _ _ _ _) as [st1 [p | e]].
  - destruct (stdout_ok _); [reflexivity |]. simpl. now destruct (stdout_ok _).
  - simpl. now destruct (stdout_ok _).
Qed.

Lemma try_process_rows (folder_path : string) (resize : bool) (filename : string) (st : state)
    (st' : state) (ps : list processed) :
  try_process vision namer png_save rename_dst stdout_ok error_str
    folder_path resize filename st = (st', inl ps) ->
  ps = [] \/ exists p, ps = [p]
    /\ snd (process_file vision namer png_save rename_dst stdout_ok error_str
              folder_path resize filename st) = inl p.
Proof.
  unfold try_process, report_error, py_print, mbind, mret, M_bind, M_ret.
  destruct (process_file _ _ _ _ _ _ _ _ _ _) as [st1 [p | e]].
  - destruct (stdout_ok _); simpl.
    + intros H. injection H as _ <-. right. now exists p.
    + destruct (stdout_ok _); [| discriminate].
      intros H. injection H as _ <-. right. now exists p.
  - simpl. destruct (stdout_ok _); [| discriminate].
    intros H. injection H as _ <-. now left.
Qed.

(** With a stream that prints everything, an iteration whose extraction
    and naming return ends as the system's rename decides. *)
Lemma try_process_reaches_rename (folder_path : string) (resize : bool)
    (filename : string) (st : state) (f : file) (content : string) (u : usage) (nm : string) :
  (forall s, stdout_ok s = true) ->
  files st !! filename = Some f ->
  vision f resize = inl (content, u) ->
  namer content = inl nm ->
  let f' := saved_file (png_save f content) in
  let cs := calls st ++ [CallContent filename; CallName content] in
  let row := mkProcessed (os_path_join folder_path filename) (String.append nm ".png") content
               (prompt_tokens u) (total_tokens u) in
  try_process vision namer png_save rename_dst stdout_ok error_str
    folder_path resize filename st =
  match rename_dst (os_path_join folder_path (String.append nm ".png")) with
  | RenameInFolder t => (mkState (<[t := f']> (delete filename (files st))) cs, inl [row])
  | RenameOutside => (mkState (delete filename (files st)) cs, inl [row])
  | RenameRaises e => (mkState (<[filename := f']> (files st)) cs, inl [])
  end.
Proof.
  intros Hout Hf Hv Hn f' cs row.
  unfold try_process. rewrite process_file_eq, Hf, Hv, Hn. cbv zeta.
  rewrite (add_metadata_prints _ _ _ _ f Hout) by exact Hf.
  rewrite (os_rename_present _ _ _ f') by (simpl; apply lookup_insert_eq).
  assert (Hcs : calls (log_call (CallName content) (log_call (CallContent filename) st)) = cs)
    by (unfold cs; simpl; now rewrite <- app_assoc).
  unfold report_error, py_print, mbind, mret, M_bind, M_ret.
  destruct (rename_dst _) as [t | | e]; simpl; rewrite ?Hout; simpl; rewrite <- Hcs;
    rewrite ?delete_insert_eq; reflexivity.
Qed.


(** C2 (amended): the code has no idempotency check; the Description tag a
    candidate may carry is never read.  For every candidate present in the
    folder the content-extraction capability is called, and the naming
    capability is called as soon as extraction returns. *)
Theorem C2_description_not_consulted (folder_path : string) (resize : bool)
    (filename : string) (st : state) (f : file) :
  files st !! filename = Some f ->
  let st' := fst (try_process vision namer png_save rename_dst stdout_ok error_str
                    folder_path resize filename st) in
  (exists rest, calls st' = calls st ++ CallContent filename :: rest)
  /\ (forall content u, vision f resize = inl (content, u) ->
        calls st' = calls st ++ [CallContent filename; CallName content]).
Proof.
  intros Hf st'. unfold st'. rewrite try_process_fst, process_file_calls, Hf. split.
  - destruct (vision f resize) as [[content u] | e].
    + now exists [CallName content].
    + now exists [].
  - intros content u Hv. now rewrite Hv.
Qed.

(** C3 (amended): a candidate is reported only if it is present, content
    extraction and naming returned and the rename did not raise; the
    description is not checked for emptiness.  The metadata write does not
    gate the rename: whatever [img.save] does, its exception is caught
    inside [add_metadata], and once the stream prints and the rename goes
    through the candidate is reported. *)
Theorem C3_rename_preconditions (folder_path : string) (resize : bool)
    (filename : string) (st : state) :
  (forall st' ps p,
     try_process vision namer png_save rename_dst stdout_ok error_str
       folder_path resize filename st = (st', inl ps) ->
     In p ps ->
     exists f u nm, files st !! filename = Some f
       /\ vision f resize = inl (p_description p, u)
       /\ namer (p_description p) = inl nm
       /\ new_name p = String.append nm ".png"
       /\ (forall e, rename_dst (os_path_join folder_path (new_name p)) <> RenameRaises e))
  /\ (forall f content u nm,
        (forall s, stdout_ok s = true) ->
        files st !! filename = Some f ->
        vision f resize = inl (content, u) ->
        namer content = inl nm ->
        (forall e, rename_dst (os_path_join folder_path (String.append nm ".png"))
                   <> RenameRaises e) ->
        exists p, snd (try_process vision namer png_save rename_dst stdout_ok error_str
                         folder_path resize filename st) = inl [p]
                  /\ p_description p = content).
Proof.
  split.
  - intros st' ps p Htry Hin.
    destruct (try_process_rows _ _ _ _ _ _ Htry) as [-> | [q [-> Hq]]]; [destruct Hin |].
    destruct Hin as [<- | []].
    destruct (process_file_row _ _ _ _ _ Hq) as [f [u [nm [Hf [Hv [Hn [Hnew [_ Hr]]]]]]]].
    now exists f, u, nm.
  - intros f content u nm Hout Hf Hv Hn Hr.
    rewrite (try_process_reaches_rename _ _ _ _ f content u nm Hout Hf Hv Hn).
    destruct (rename_dst _) as [t | | e] eqn:Ht.
    + eexists; split; reflexivity.
    + eexists; split; reflexivity.
    + exfalso. exact (Hr e eq_refl).
Qed.

(** C4 (amended): if the candidate is missing, or content extraction or
    naming raises, or [print(content)] at the start of [add_metadata]
    raises, the iteration leaves every file of the folder at its path with
    its content and reports nothing.  A failed metadata write is
    swallowed: the candidate is still moved, with the content the failed
    save left. *)
Theorem C4_early_failure_leaves_folder (folder_path : string) (resize : bool)
    (filename : string) (st : state) :
  ((files st !! filename = None)
   \/ (exists f e, files st !! filename = Some f /\ vision f resize = inr e)
   \/ (exists f content u e, files st !! filename = Some f
         /\ vision f resize = inl (content, u) /\ namer content = inr e)
   \/ (exists f content u nm, files st !! filename = Some f
         /\ vision f resize = inl (content, u) /\ namer content = inl nm
         /\ stdout_ok content = false) ->
   files (fst (try_process vision namer png_save rename_dst stdout_ok error_str
                 folder_path resize filename st)) = files st
   /\ (forall st' ps, try_process vision namer png_save rename_dst stdout_ok error_str
                        folder_path resize filename st = (st', inl ps) -> ps = []))
  /\ (forall f content u nm f' e t,
        (forall s, stdout_ok s = true) ->
        files st !! filename = Some f ->
        vision f resize = inl (content, u) ->
        namer content = inl nm ->
        png_save f content = SaveFailed f' e ->
        rename_dst (os_path_join folder_path (String.append nm ".png")) = RenameInFolder t ->
        files (fst (try_process vision namer png_save rename_dst stdout_ok error_str
                      folder_path resize filename st))
        = <[t := f']> (delete filename (files st))).
Proof.
  split.
  - intros Hcase.
    assert (Hpf : files (fst (process_file vision namer png_save rename_dst stdout_ok error_str
                                folder_path resize filename st)) = files st
                  /\ forall p, snd (process_file vision namer png_save rename_dst stdout_ok
                                      error_str folder_path resize filename st) <> inl p).
    { rewrite process_file_eq.
      destruct Hcase as [Hf | [[f [e [Hf Hv]]] | [[f [content [u [e [Hf [Hv Hn]]]]]]
                          | [f [content [u [nm [Hf [Hv [Hn Hp]]]]]]]]]]; rewrite Hf.
      - split; [reflexivity | discriminate].
      - rewrite Hv. split; [reflexivity | discriminate].
      - rewrite Hv, Hn. split; [reflexivity | discriminate].
      - rewrite Hv, Hn. cbv zeta. rewrite add_metadata_print_fails by exact Hp.
        split; [reflexivity | discriminate]. }
    destruct Hpf as [Hfiles Hnone]. split.
    + now rewrite try_process_fst.
    + intros st' ps Htry.
      destruct (try_process_rows _ _ _ _ _ _ Htry) as [-> | [q [_ Hq]]]; [reflexivity |].
      exfalso. exact (Hnone q Hq).
  - intros f content u nm f' e t Hout Hf Hv Hn Hs Ht.
    rewrite (try_process_reaches_rename _ _ _ _ f content u nm Hout Hf Hv Hn), Ht, Hs.
    reflexivity.
Qed.

End Capabilities.



(** C2 (counterexample): a screenshot already tagged [Description] by a
    previous run is processed again: both capabilities are called and it
    is reported as processed, not skipped. *)
Lemma C2_tagged_file_processed_again :
  files tagged_folder !! "Screenshot 1.png" = Some (mkFile "pixels-A" (Some "A sales chart"))
  /\ calls (fst (process_screenshots demo_vision demo_namer demo_save demo_rename demo_stdout
                   demo_error_str "/shots" false tagged_folder))
     = [CallContent "Screenshot 1.png"; CallName "A sales chart"]
  /\ snd (process_screenshots demo_vision demo_namer demo_save demo_rename demo_stdout
            demo_error_str "/shots" false tagged_folder)
     = inl [mkProcessed "/shots/Screenshot 1.png" "sales_chart_q1.png" "A sales chart" 100 120].
Proof. repeat split; vm_compute; reflexivity. Qed.

Lemma C2_description_not_consulted_witness :
  calls (fst (try_process demo_vision demo_namer demo_save demo_rename demo_stdout
                demo_error_str "/shots" false "Screenshot 1.png" tagged_folder))
  = [CallContent "Screenshot 1.png"; CallName "A sales chart"].
Proof.
  exact (proj2 (C2_description_not_consulted demo_vision demo_namer demo_save demo_rename
           demo_stdout demo_error_str "/shots" false
           "Screenshot 1.png" tagged_folder (mkFile "pixels-A" (Some "A sales chart"))
           ltac:(vm_compute; reflexivity))
           "A sales chart" (mkUsage 100 20 120) ltac:(reflexivity)).
Defined.

(** C3 (counterexample): the metadata write fails (the file keeps no
    Description), yet the screenshot is renamed and reported. *)
Lemma C3_failed_metadata_write_still_renamed :
  files (fst (process_screenshots demo_vision demo_namer demo_save_fail demo_rename demo_stdout
                demo_error_str "/shots" false single_folder))
  = {["sales_chart_q1.png" := mkFile "pixels-A" None]}
  /\ snd (process_screenshots demo_vision demo_namer demo_save_fail demo_rename demo_stdout
            demo_error_str "/shots" false single_folder)
     = inl [mkProcessed "/shots/Screenshot 1.png" "sales_chart_q1.png" "A sales chart" 100 120].
Proof. split; vm_compute; reflexivity. Qed.

Lemma C3_rename_preconditions_witness :
  exists p, snd (try_process demo_vision demo_namer demo_save_fail demo_rename demo_stdout
                   demo_error_str "/shots" false "Screenshot 1.png" single_folder) = inl [p]
            /\ p_description p = "A sales chart".
Proof.
  exact (proj2 (C3_rename_preconditions demo_vision demo_namer demo_save_fail demo_rename
           demo_stdout demo_error_str "/shots" false "Screenshot 1.png" single_folder)
           (mkFile "pixels-A" None) "A sales chart" (mkUsage 100 20 120) "sales_chart_q1"
           (fun s => eq_refl) ltac:(vm_compute; reflexivity) ltac:(reflexivity)
           ltac:(reflexivity) ltac:(intros e; vm_compute; discriminate)).
Defined.

(** C4 (counterexample): the metadata write fails; the screenshot is no
    longer at its original path afterwards. *)
Lemma C4_failed_metadata_write_moves_file :
  files single_folder !! "Screenshot 1.png" = Some (mkFile "pixels-A" None)
  /\ files (fst (process_screenshots demo_vision demo_namer demo_save_fail demo_rename
                   demo_stdout demo_error_str "/shots" false single_folder))
     !! "Screenshot 1.png" = None.
Proof. split; vm_compute; reflexivity. Qed.

Lemma C4_early_failure_leaves_folder_witness :
  files (fst (try_process demo_vision_fail demo_namer demo_save demo_rename demo_stdout
                demo_error_str "/shots" false "Screenshot 1.png" single_folder))
  = files single_folder
  /\ files (fst (try_process demo_vision demo_namer demo_save_fail demo_rename demo_stdout
                   demo_error_str "/shots" false "Screenshot 1.png" single_folder))
     = <["sales_chart_q1.png" := mkFile "pixels-A" None]>
         (delete "Screenshot 1.png" (files single_folder)).
Proof.
  split.
  - refine (proj1 (proj1 (C4_early_failure_leaves_folder demo_vision_fail demo_namer demo_save
             demo_rename demo_stdout demo_error_str "/shots" false "Screenshot 1.png"
             single_folder) _)).
    right; left. exists (mkFile "pixels-A" None), (APIError "rate limit exceeded").
    split; [vm_compute |]; reflexivity.
  - exact (proj2 (C4_early_failure_leaves_folder demo_vision demo_namer demo_save_fail
             demo_rename demo_stdout demo_error_str "/shots" false "Screenshot 1.png"
             single_folder)
             (mkFile "pixels-A" None) "A sales chart" (mkUsage 100 20 120) "sales_chart_q1"
             (mkFile "pixels-A" None) OSError "sales_chart_q1.png"
             (fun s => eq_refl) ltac:(vm_compute; reflexivity) ltac:(reflexivity)
             ltac:(reflexivity) ltac:(reflexivity) ltac:(vm_compute; reflexivity)).
Defined.

End AppTransactionFacts.

(* ================================================================== *)
(** * Further properties of the code *)

Module ClassifierExtraFacts.
Import App AppClassifierFacts.

Lemma py_lower_char_idem (c : ascii) : py_lower_char (py_lower_char c) = py_lower_char c.
Proof. destruct c as [[] [] [] [] [] [] [] []]; reflexivity. Qed.

Lemma py_lower_char_space (c : ascii) :
  py_isspace c = true -> py_lower_char c = c.
Proof. destruct c as [[] [] [] [] [] [] [] []]; first [reflexivity | discriminate]. Qed.

Lemma py_lower_idem (s : string) : py_lower (py_lower s) = py_lower s.
Proof. induction s as [| c s IH]; simpl; [reflexivity | now rewrite py_lower_char_idem, IH]. Qed.

Lemma py_lower_append (a b : string) :
  py_lower (String.append a b) = String.append (py_lower a) (py_lower b).
Proof. induction a as [| c a IH]; simpl; [reflexivity | now rewrite IH]. Qed.

Lemma strip_whitespace_append (a b : string) :
  strip_whitespace (String.append a b)
  = String.append (strip_whitespace a) (strip_whitespace b).
Proof.
  induction a as [| c a IH]; simpl; [reflexivity |].
  destruct (py_isspace c); simpl; now rewrite IH.
Qed.

Lemma append_cons (x : ascii) (a b : string) :
  String.append (String x a) b = String x (String.append a b).
Proof. reflexivity. Qed.

Lemma string_append_assoc (a b c : string) :
  String.append a (String.append b c) = String.append (String.append a b) c.
Proof.
  induction a as [| x a IH]; [reflexivity |].
  rewrite !append_cons, IH. reflexivity.
Qed.

Lemma string_append_nil_r (a : string) : String.append a "" = a.
Proof. induction a as [| x a IH]; [reflexivity | now rewrite append_cons, IH]. Qed.

Lemma substring_prefix (n : nat) (s : string) :
  exists r, s = String.append (substring 0 n s) r.
Proof.
  revert n. induction s as [| c s IH]; intros [| n]; simpl.
  - now exists ""%string.
  - now exists ""%string.
  - now exists (String c s).
  - destruct (IH n) as [r Hr]. exists r. now rewrite append_cons, <- Hr.
Qed.

Lemma splitext_root_prefix (p : string) :
  exists r, p = String.append (fst (CountPngsScan.splitext p)) r.
Proof.
  unfold CountPngsScan.splitext.
  destruct (_ <? _); [destruct (negb _) |]; simpl;
    [apply substring_prefix | exists ""%string; now rewrite string_append_nil_r ..].
Qed.

(** [is_screenshot] ignores letter case: lower-casing a name first does
    not change the verdict. *)
Theorem is_screenshot_lower (filename : string) :
  is_screenshot (py_lower filename) = is_screenshot filename.
Proof. unfold is_screenshot. now rewrite py_lower_idem. Qed.

(** [is_screenshot] ignores whitespace: deleting one whitespace character
    anywhere in a name does not change the verdict. *)
Theorem is_screenshot_whitespace (a b : string) (c : ascii) :
  py_isspace c = true ->
  is_screenshot (String.append a (String c b)) = is_screenshot (String.append a b).
Proof.
  intros Hc. unfold is_screenshot.
  rewrite !py_lower_append, !strip_whitespace_append. simpl.
  rewrite (py_lower_char_space c Hc), Hc. reflexivity.
Qed.

Lemma is_screenshot_whitespace_witness :
  is_screenshot (String.append "Screen" (String " " "shot.png")) = true.
Proof.
  rewrite (is_screenshot_whitespace "Screen" "shot.png" " " ltac:(reflexivity)).
  vm_compute. reflexivity.
Defined.

(** Every file the cost scan of [analyze_screenshot_pngs] counts is one
    [is_screenshot] accepts, so the estimate never covers a file the
    renaming tool would leave alone. *)
Theorem counted_png_is_screenshot (file : string) :
  CountPngsScan.is_counted_png file = true -> is_screenshot file = true.
Proof.
  unfold CountPngsScan.is_counted_png. rewrite andb_true_iff, orb_true_iff.
  intros [Hend Hname].
  destruct (splitext_root_prefix file) as [r Hr].
  set (root := fst (CountPngsScan.splitext file)) in *.
  assert (Hin : exists x y, strip_whitespace (py_lower file)
                            = String.append x (String.append "screenshot" y)).
  { rewrite Hr, py_lower_append.
    destruct Hname as [H | H]; apply py_contains_spec in H as [x [y Hxy]];
      rewrite Hxy, <- !string_append_assoc, !strip_whitespace_append;
      exists (strip_whitespace x), (String.append (strip_whitespace y)
                                     (strip_whitespace (py_lower r)));
      reflexivity. }
  apply py_endswith_spec in Hend as [pre Hpre].
  unfold is_screenshot.
  assert (He : py_endswith (strip_whitespace (py_lower file)) ".png" = true).
  { apply py_endswith_spec. exists (strip_whitespace pre).
    rewrite Hpre, strip_whitespace_append. reflexivity. }
  rewrite He. simpl.
  destruct Hin as [x [y Hxy]].
  assert (Hs : py_contains (strip_whitespace (py_lower file)) "screenshot" = true)
    by (apply py_contains_spec; now exists x, y).
  rewrite Hs. reflexivity.
Qed.

Lemma counted_png_is_screenshot_witness :
  CountPngsScan.is_counted_png "Screen Shot 2024-05-01 at 10.15.32.png" = true
  /\ is_screenshot "Screen Shot 2024-05-01 at 10.15.32.png" = true.
Proof.
  assert (H : CountPngsScan.is_counted_png "Screen Shot 2024-05-01 at 10.15.32.png" = true)
    by (vm_compute; reflexivity).
  exact (conj H (counted_png_is_screenshot _ H)).
Defined.

End ClassifierExtraFacts.

Module EstimatorExtraFacts.
Import CountPngs CountPngsFacts.

Lemma py_ceil_div_ge1 (a : Z) : 0 < a -> 1 <= py_ceil_div a TILE_SIZE_PIXELS.
Proof. intros Ha. apply (py_ceil_div_pos_mono a a). lia. Qed.

(** The halved estimate never degenerates: whatever the recorded
    dimensions (even zero or negative), it covers at least one tile and so
    at least 8500 tokens. *)
Theorem halved_at_least_one_tile (data : screenshot) :
  1 <= halved_tiles (estimate_one data) /\ 8500 <= halved_tokens (estimate_one data).
Proof.
  unfold estimate_one; simpl. unfold determine_tiles, calculate_tokens_per_image,
    BASE_TOKENS_PER_IMAGE, TILE_TOKENS.
  pose proof (py_ceil_div_ge1 (Z.max 1 (width_px data / 2)) ltac:(lia)).
  pose proof (py_ceil_div_ge1 (Z.max 1 (height_px data / 2)) ltac:(lia)).
  split; nia.
Qed.

(** An image of at most 512 x 512 pixels is one tile (8500 tokens) both at
    its size and halved, so halving it saves nothing. *)
Theorem small_image_no_savings (data : screenshot) :
  0 < width_px data <= 512 -> 0 < height_px data <= 512 ->
  let e := estimate_one data in
  original_tiles e = 1 /\ halved_tiles e = 1 /\ original_tokens e = 8500
  /\ (savings e == 0)%Q.
Proof.
  intros Hw Hh.
  assert (H1 : forall a, 0 < a <= 512 -> py_ceil_div a TILE_SIZE_PIXELS = 1).
  { intros a Ha. unfold py_ceil_div, TILE_SIZE_PIXELS.
    assert (- a / 512 = -1); [| lia].
    symmetry. apply Z.div_unique with (r := 512 - a); lia. }
  assert (Hhw : 0 < Z.max 1 (width_px data / 2) <= 512).
  { assert (width_px data / 2 <= 512) by (apply Z.div_le_upper_bound; lia). lia. }
  assert (Hhh : 0 < Z.max 1 (height_px data / 2) <= 512).
  { assert (height_px data / 2 <= 512) by (apply Z.div_le_upper_bound; lia). lia. }
  unfold estimate_one; simpl. unfold determine_tiles.
  rewrite (H1 _ Hw), (H1 _ Hh), (H1 _ Hhw), (H1 _ Hhh).
  repeat split.
Qed.

Lemma small_image_no_savings_witness :
  original_tiles (estimate_one (mkScreenshot "Screenshot.png" 300 200 0)) = 1.
Proof.
  exact (proj1 (small_image_no_savings (mkScreenshot "Screenshot.png" 300 200 0)
                  ltac:(simpl; lia) ltac:(simpl; lia))).
Defined.

(** [encode_image] halves an image only when asked to and only when both
    sides are at least 1024 pixels, so a resized image is never below
    512 pixels on either side; otherwise the image is sent at its size. *)
Theorem encode_image_size_cases (w h : Z) (resize : bool) :
  let '(w', h') := App.encode_image_size w h resize in
  (w' = w /\ h' = h)
  \/ (resize = true /\ 1024 <= w /\ 1024 <= h /\ w' = w / 2 /\ h' = h / 2
      /\ 512 <= w' /\ 512 <= h').
Proof.
  unfold App.encode_image_size.
  destruct resize; [| left; split; reflexivity].
  destruct (1024 <=? w) eqn:Hw; [| left; split; reflexivity].
  destruct (1024 <=? h) eqn:Hh; [| left; split; reflexivity].
  apply Z.leb_le in Hw, Hh. right.
  rewrite !Z.quot_div_nonneg by lia.
  assert (512 <= w / 2) by (apply Z.div_le_lower_bound; lia).
  assert (512 <= h / 2) by (apply Z.div_le_lower_bound; lia).
  repeat split; lia.
Qed.

(** What [encode_image] sends with [resize=True] never has more tiles
    than the original.  When both sides are at least 1024 pixels it has
    the halved dimensions of the cost estimate; when either side is below
    1024 the image is sent unchanged, and the halved estimate does not
    describe it. *)
Theorem encode_image_vs_halved_estimate (data : screenshot) :
  0 < width_px data -> 0 < height_px data ->
  let '(w', h') := App.encode_image_size (width_px data) (height_px data) true in
  let e := estimate_one data in
  determine_tiles w' h' <= original_tiles e
  /\ (1024 <= width_px data -> 1024 <= height_px data ->
      (w', h') = (halved_width_px e, halved_height_px e))
  /\ (width_px data < 1024 \/ height_px data < 1024 ->
      (w', h') = (width_px data, height_px data)).
Proof.
  intros Hw Hh. unfold App.encode_image_size.
  destruct (1024 <=? width_px data) eqn:Ew; destruct (1024 <=? height_px data) eqn:Eh;
    simpl; try apply Z.leb_le in Ew; try apply Z.leb_le in Eh;
    try apply Z.leb_gt in Ew; try apply Z.leb_gt in Eh.
  - rewrite !Z.quot_div_nonneg by lia.
    assert (512 <= width_px data / 2) by (apply Z.div_le_lower_bound; lia).
    assert (512 <= height_px data / 2) by (apply Z.div_le_lower_bound; lia).
    assert (width_px data / 2 <= width_px data) by (apply Z.div_le_upper_bound; lia).
    assert (height_px data / 2 <= height_px data) by (apply Z.div_le_upper_bound; lia).
    split; [| split; [intros _ _; f_equal; lia | intros [? | ?]; lia]].
    apply determine_tiles_mono; lia.
  - split; [lia | split; [intros _ ?; lia | intros _; reflexivity]].
  - split; [lia | split; [intros ? _; lia | intros _; reflexivity]].
  - split; [lia | split; [intros ? _; lia | intros _; reflexivity]].
Qed.

Lemma encode_image_vs_halved_estimate_witness :
  determine_tiles 960 540 <= original_tiles (estimate_one (mkScreenshot "Screenshot.png" 1920 1080 0)).
Proof.
  exact (proj1 (encode_image_vs_halved_estimate (mkScreenshot "Screenshot.png" 1920 1080 0)
                  ltac:(simpl; lia) ltac:(simpl; lia))).
Defined.

End EstimatorExtraFacts.

Module TransactionExtraFacts.
Import App AppTransactionFacts.

Lemma content_calls_app (a b : list event) :
  content_calls (a ++ b) = content_calls a ++ content_calls b.
Proof. induction a as [| [p | c] a IH]; simpl; rewrite ?IH; reflexivity. Qed.

Section Capabilities.
Variable vision : file -> bool -> (string * usage) + error.
Variable namer : string -> string + error.
Variable png_save : file -> string -> save_outcome.
Variable rename_dst : string -> rename_outcome.
Variable stdout_ok : string -> bool.
Variable error_str : error -> string.

Lemma add_metadata_frame (folder_path filename content k : string) (st : state) :
  k <> filename ->
  files (fst (add_metadata png_save stdout_ok error_str folder_path filename content st)) !! k
  = files st !! k.
Proof.
  intros Hk.
  destruct (add_metadata_files png_save stdout_ok error_str folder_path filename content st)
    as [-> | [f [f' [_ ->]]]]; [reflexivity |].
  now rewrite lookup_insert_ne by congruence.
Qed.

Lemma add_metadata_size (folder_path filename content : string) (st : state) :
  size (files (fst (add_metadata png_save stdout_ok error_str folder_path filename content st)))
  = size (files st).
Proof.
  destruct (add_metadata_files png_save stdout_ok error_str folder_path filename content st)
    as [-> | [f [f' [Hf ->]]]]; [reflexivity |].
  apply map_size_insert_Some. rewrite Hf. eauto.
Qed.

Lemma os_rename_frame (src dst k : string) (st : state) :
  k <> src ->
  rename_dst dst <> RenameInFolder k ->
  files (fst (os_rename rename_dst src dst st)) !! k = files st !! k.
Proof.
  intros Hk Ht. unfold os_rename.
  destruct (files st !! src) as [f |]; [| reflexivity].
  destruct (rename_dst dst) as [t | | e]; simpl; [| | reflexivity].
  - rewrite lookup_insert_ne by congruence. now rewrite lookup_delete_ne by congruence.
  - now rewrite lookup_delete_ne by congruence.
Qed.

Lemma os_rename_size (src dst : string) (st : state) :
  (size (files (fst (os_rename rename_dst src dst st))) <= size (files st))%nat.
Proof.
  unfold os_rename.
  destruct (files st !! src) as [f |] eqn:Hf; [| reflexivity].
  assert (Hs : is_Some (files st !! src)) by (rewrite Hf; eauto).
  pose proof (map_size_delete_Some src (files st) Hs) as Hd.
  assert (size (files st) <> 0%nat).
  { intros H0. apply map_size_empty_inv in H0. rewrite H0, lookup_empty in Hf. discriminate. }
  destruct (rename_dst dst) as [t | | e]; simpl; [| lia | lia].
  rewrite map_size_insert. destruct (delete src (files st) !! t); simpl; lia.
Qed.

(** *** One iteration *)

Lemma step_calls (folder_path : string) (resize : bool) (filename : string) (st : state) :
  exists evs, calls (fst (try_process vision namer png_save rename_dst stdout_ok error_str
                            folder_path resize filename st)) = calls st ++ evs
              /\ content_calls evs `sublist_of` [filename].
Proof.
  rewrite try_process_fst, process_file_calls.
  destruct (files st !! filename) as [f |];
    [| exists []; split; [now rewrite app_nil_r | repeat constructor]].
  destruct (vision f resize) as [[content u] | e].
  - exists [CallContent filename; CallName content]. split; reflexivity.
  - exists [CallContent filename]. split; reflexivity.
Qed.

Lemma step_frame (folder_path : string) (resize : bool) (filename k : string) (st : state) :
  k <> filename ->
  (forall c nm, namer c = inl nm ->
     rename_dst (os_path_join folder_path (String.append nm ".png")) <> RenameInFolder k) ->
  files (fst (try_process vision namer png_save rename_dst stdout_ok error_str
                folder_path resize filename st)) !! k = files st !! k.
Proof.
  intros Hk Hdst. rewrite try_process_fst, process_file_eq.
  destruct (files st !! filename) as [f |]; [| reflexivity].
  destruct (vision f resize) as [[content u] | e]; [| reflexivity].
  destruct (namer content) as [nm | e] eqn:Hn; [| reflexivity].
  cbv zeta.
  pose proof (add_metadata_frame folder_path filename content k
                (log_call (CallName content) (log_call (CallContent filename) st)) Hk) as H3.
  destruct (add_metadata _ _ _ _ _ _ _) as [st3 [[] | e]]; simpl in H3 |- *; [| exact H3].
  pose proof (os_rename_frame filename (os_path_join folder_path (String.append nm ".png")) k st3
                Hk (Hdst content nm Hn)) as H4.
  destruct (os_rename _ _ _ _) as [st4 [[] | e]]; simpl in H4 |- *; congruence.
Qed.

Lemma step_size (folder_path : string) (resize : bool) (filename : string) (st : state) :
  (size (files (fst (try_process vision namer png_save rename_dst stdout_ok error_str
                       folder_path resize filename st))) <= size (files st))%nat.
Proof.
  rewrite try_process_fst, process_file_eq.
  destruct (files st !! filename) as [f |]; [| reflexivity].
  destruct (vision f resize) as [[content u] | e]; [| reflexivity].
  destruct (namer content) as [nm | e]; [| reflexivity].
  cbv zeta.
  pose proof (add_metadata_size folder_path filename content
                (log_call (CallName content) (log_call (CallContent filename) st))) as H3.
  destruct (add_metadata _ _ _ _ _ _ _) as [st3 [[] | e]]; simpl in H3 |- *; [| lia].
  pose proof (os_rename_size filename (os_path_join folder_path (String.append nm ".png")) st3)
    as H4.
  destruct (os_rename _ _ _ _) as [st4 [[] | e]]; simpl in H4 |- *; lia.
Qed.

(** The properties of a reported row. *)
Lemma step_row (folder_path : string) (resize : bool) (filename : string) (st st' : state)
    (ps : list processed) :
  try_process vision namer png_save rename_dst stdout_ok error_str
    folder_path resize filename st = (st', inl ps) ->
  ps = [] \/ exists p, ps = [p]
    /\ original_path p = os_path_join folder_path filename
    /\ exists nm, namer (p_description p) = inl nm
         /\ new_name p = String.append nm ".png"
         /\ (forall e, rename_dst (os_path_join folder_path (new_name p)) <> RenameRaises e).
Proof.
  intros Htry.
  destruct (try_process_rows _ _ _ _ _ _ _ _ _ _ _ _ Htry) as [-> | [p [-> Hp]]]; [now left |].
  right. exists p. split; [reflexivity |].
  destruct (process_file_row _ _ _ _ _ _ _ _ _ _ _ Hp)
    as [f [u [nm [_ [_ [Hn [Hnew [Ho Hr]]]]]]]].
  split; [exact Ho | now exists nm].
Qed.

Lemma process_list_cons (folder_path : string) (resize : bool) (fn : string)
    (rest : list string) (st : state) :
  process_list vision namer png_save rename_dst stdout_ok error_str folder_path resize
    (fn :: rest) st =
  if is_screenshot fn then
    match try_process vision namer png_save rename_dst stdout_ok error_str
            folder_path resize fn st with
    | (st1, inl ps1) =>
        match process_list vision namer png_save rename_dst stdout_ok error_str
                folder_path resize rest st1 with
        | (st2, inl ps2) => (st2, inl (ps1 ++ ps2))
        | (st2, inr e) => (st2, inr e)
        end
    | (st1, inr e) => (st1, inr e)
    end
  else process_list vision namer png_save rename_dst stdout_ok error_str
         folder_path resize rest st.
Proof.
  simpl. destruct (is_screenshot fn); [| reflexivity].
  unfold mbind, mret, M_bind, M_ret.
  destruct (try_process _ _ _ _ _ _ _ _ _ st) as [st1 [ps1 | e]]; [| reflexivity].
  destruct (process_list _ _ _ _ _ _ _ _ _ st1) as [st2 [ps2 | e]]; reflexivity.
Qed.

(** *** The batch *)

(** A file whose name is not a screenshot name is never modified or
    removed by the batch, as long as no rename target the naming capability
    can produce resolves to it. *)
Theorem non_screenshot_untouched (folder_path : string) (resize : bool)
    (names : list string) (st : state) (k : string) :
  is_screenshot k = false ->
  (forall c nm, namer c = inl nm ->
     rename_dst (os_path_join folder_path (String.append nm ".png")) <> RenameInFolder k) ->
  files (fst (process_list vision namer png_save rename_dst stdout_ok error_str
                folder_path resize names st)) !! k = files st !! k.
Proof.
  intros Hk Hdst. revert st. induction names as [| fn rest IH]; intros st; [reflexivity |].
  rewrite process_list_cons.
  destruct (is_screenshot fn) eqn:Hfn; [| apply IH].
  assert (Hne : k <> fn) by congruence.
  pose proof (step_frame folder_path resize fn k st Hne Hdst) as Hstep.
  destruct (try_process _ _ _ _ _ _ _ _ _ st) as [st1 [ps1 | e]]; simpl in Hstep |- *;
    [| exact Hstep].
  specialize (IH st1).
  destruct (process_list _ _ _ _ _ _ _ _ _ st1) as [st2 [ps2 | e]]; simpl in IH |- *;
    congruence.
Qed.

(** Every reported row comes from a screenshot name of the listing, in
    listing order and at most once each; its [original_path] is that name
    joined to the folder path, its [new_name] is the generated name plus
    [.png], and the rename onto that target did not raise. *)
Theorem rows_from_screenshot_names (folder_path : string) (resize : bool)
    (names : list string) (st : state) (ps : list processed) :
  snd (process_list vision namer png_save rename_dst stdout_ok error_str
         folder_path resize names st) = inl ps ->
  map original_path ps `sublist_of` map (os_path_join folder_path) (List.filter is_screenshot names)
  /\ Forall (fun p => exists nm, namer (p_description p) = inl nm
                       /\ new_name p = String.append nm ".png"
                       /\ (forall e, rename_dst (os_path_join folder_path (new_name p))
                                     <> RenameRaises e)) ps.
Proof.
  revert st ps. induction names as [| fn rest IH]; intros st ps.
  - simpl. intros H. injection H as <-. split; constructor.
  - rewrite process_list_cons. simpl List.filter.
    destruct (is_screenshot fn) eqn:Hfn; [| apply IH].
    pose proof (step_row folder_path resize fn st) as Hrow.
    destruct (try_process _ _ _ _ _ _ _ _ _ st) as [st1 [ps1 | e]]; [| discriminate].
    specialize (Hrow st1 ps1 eq_refl). specialize (IH st1).
    destruct (process_list _ _ _ _ _ _ _ _ _ st1) as [st2 [ps2 | e]]; [| discriminate].
    simpl. intros H. injection H as <-.
    destruct (IH ps2 eq_refl) as [IHs IHf].
    destruct Hrow as [-> | [p [-> [Ho Hp]]]]; simpl.
    + split; [now apply sublist_cons | exact IHf].
    + split; [rewrite Ho; now apply sublist_skip | constructor; [exact Hp | exact IHf]].
Qed.

(** The content-extraction capability (the paid vision call) is only ever
    invoked on screenshot names of the listing, in listing order and at
    most once per name; the batch only appends to the call log. *)
Theorem api_calls_only_for_screenshots (folder_path : string) (resize : bool)
    (names : list string) (st : state) :
  exists evs,
    calls (fst (process_list vision namer png_save rename_dst stdout_ok error_str
                  folder_path resize names st)) = calls st ++ evs
    /\ content_calls evs `sublist_of` List.filter is_screenshot names.
Proof.
  revert st. induction names as [| fn rest IH]; intros st.
  - exists []. split; [simpl; now rewrite app_nil_r | constructor].
  - rewrite process_list_cons. simpl List.filter.
    destruct (is_screenshot fn) eqn:Hfn; [| apply IH].
    destruct (step_calls folder_path resize fn st) as [evs1 [Hc1 Hs1]].
    change (fn :: List.filter is_screenshot rest) with ([fn] ++ List.filter is_screenshot rest).
    destruct (try_process _ _ _ _ _ _ _ _ _ st) as [st1 [ps1 | e]]; simpl in Hc1.
    + destruct (IH st1) as [evs2 [Hc2 Hs2]].
      destruct (process_list _ _ _ _ _ _ _ _ _ st1) as [st2 r2].
      exists (evs1 ++ evs2). split.
      * destruct r2; simpl in Hc2 |- *; rewrite Hc2, Hc1; now rewrite <- app_assoc.
      * rewrite content_calls_app. now apply sublist_app.
    + exists evs1. split; [exact Hc1 |].
      rewrite <- (app_nil_r (content_calls evs1)). apply sublist_app; [exact Hs1 |].
      apply sublist_nil_l.
Qed.

(** The batch never creates files: the folder ends with at most as many
    files as it started with (fewer when a rename replaced a file or moved
    one out of the folder). *)
Theorem folder_never_grows (folder_path : string) (resize : bool)
    (names : list string) (st : state) :
  (size (files (fst (process_list vision namer png_save rename_dst stdout_ok error_str
                       folder_path resize names st)))
   <= size (files st))%nat.
Proof.
  revert st. induction names as [| fn rest IH]; intros st; [simpl; lia |].
  rewrite process_list_cons.
  destruct (is_screenshot fn); [| apply IH].
  pose proof (step_size folder_path resize fn st) as Hs.
  destruct (try_process _ _ _ _ _ _ _ _ _ st) as [st1 [ps1 | e]]; simpl in Hs |- *; [| lia].
  specialize (IH st1).
  destruct (process_list _ _ _ _ _ _ _ _ _ st1) as [st2 [ps2 | e]]; simpl in IH |- *; lia.
Qed.

End Capabilities.

Lemma non_screenshot_untouched_witness :
  files (fst (process_list demo_vision demo_namer demo_save demo_rename demo_stdout
                demo_error_str "/shots" false ["Screenshot 1.png"; "notes.txt"] notes_folder))
    !! "notes.txt"
  = files notes_folder !! "notes.txt".
Proof.
  apply non_screenshot_untouched; [reflexivity |].
  intros c nm Hn. injection Hn as <-. vm_compute. discriminate.
Defined.

Lemma rows_from_screenshot_names_witness :
  map original_path [mkProcessed "/shots/Screenshot 1.png" "sales_chart_q1.png"
                       "A sales chart" 100 120]
    `sublist_of` map (os_path_join "/shots")
                   (List.filter is_screenshot ["Screenshot 1.png"; "notes.txt"]).
Proof.
  exact (proj1 (rows_from_screenshot_names demo_vision demo_namer demo_save demo_rename
           demo_stdout demo_error_str "/shots" false ["Screenshot 1.png"; "notes.txt"]
           notes_folder _ ltac:(vm_compute; reflexivity))).
Defined.

End TransactionExtraFacts.

Module CheckMetaTagsFacts.
Import App CheckMetaTags.

(** [read_metadata_from_folder] has a single [try] around its loop: the
    first PNG that is missing or that [Image.open] rejects ends the whole
    listing, and no later image is printed. *)
Theorem read_stops_at_unreadable (image_opens : file -> bool)
    (folder : gmap string file) (l1 : list string) (fn : string) (l2 : list string) :
  snd (read_metadata_loop image_opens folder l1) = false ->
  py_endswith (py_lower fn) ".png" = true ->
  match folder !! fn with Some img => image_opens img = false | None => True end ->
  read_metadata_loop image_opens folder (l1 ++ fn :: l2)
  = (fst (read_metadata_loop image_opens folder l1), true).
Proof.
  intros Hok Hpng Hbad. induction l1 as [| x l1 IH]; simpl in *.
  - rewrite Hpng. destruct (folder !! fn) as [img |]; [now rewrite Hbad | reflexivity].
  - destruct (py_endswith (py_lower x) ".png"); [| now apply IH].
    destruct (folder !! x) as [img |]; [| discriminate].
    destruct (image_opens img); [| discriminate].
    destruct (read_metadata_loop image_opens folder l1) as [lines raised] eqn:Hl.
    simpl in *. rewrite IH by exact Hok. reflexivity.
Qed.

Lemma read_stops_at_unreadable_witness :
  read_metadata_loop (fun f => negb (String.eqb (data f) "corrupt"))
    (<["a.png" := mkFile "pixels" (Some "A chart")]>
      (<["b.png" := mkFile "corrupt" None]> {["c.png" := mkFile "pixels" None]}))
    ["a.png"; "b.png"; "c.png"]
  = ([("a.png", "A chart")], true).
Proof.
  change ["a.png"; "b.png"; "c.png"] with (["a.png"] ++ "b.png" :: ["c.png"]).
  rewrite (read_stops_at_unreadable (fun f => negb (String.eqb (data f) "corrupt"))
             (<["a.png" := mkFile "pixels" (Some "A chart")]>
               (<["b.png" := mkFile "corrupt" None]> {["c.png" := mkFile "pixels" None]}))
             ["a.png"] "b.png" ["c.png"]).
  - vm_compute. reflexivity.
  - vm_compute. reflexivity.
  - vm_compute. reflexivity.
  - vm_compute. reflexivity.
Defined.

(** Every line [read_metadata_from_folder] prints names a [.png] file of
    the listing (in any letter case) and shows that file's Description
    text, or "No description found" when it has none. *)
Theorem read_lines_describe_pngs (image_opens : file -> bool)
    (folder : gmap string file) (names : list string) :
  Forall (fun line =>
            fst line ∈ names
            /\ py_endswith (py_lower (fst line)) ".png" = true
            /\ exists img, folder !! fst line = Some img
                           /\ snd line = default "No description found" (description img))
         (fst (read_metadata_loop image_opens folder names)).
Proof.
  induction names as [| x rest IH]; simpl; [constructor |].
  destruct (py_endswith (py_lower x) ".png") eqn:Hpng.
  - destruct (folder !! x) as [img |] eqn:Hx; [| constructor].
    destruct (image_opens img); [| constructor].
    destruct (read_metadata_loop image_opens folder rest) as [lines raised].
    simpl in *. constructor.
    + split; [left |]. split; [exact Hpng | now exists img].
    + eapply Forall_impl; [exact IH |]. intros [n d] [Hin Hrest]. split; [now right | exact Hrest].
  - eapply Forall_impl; [exact IH |]. intros [n d] [Hin Hrest]. split; [now right | exact Hrest].
Qed.

End CheckMetaTagsFacts.
